(** * mono-wrapper: the handle protocol and the reflection cache

    A shallow embedding of [src/monowrapper.h] (namespace [mono]) and of the
    older [src/MonoWrapper.h].  The two templates [ManagedHandle<T>] and
    [ManagedBase<T>] point at each other through raw pointers, so both live
    in an explicit store; a dereference of a null pointer or of a pointer to
    a destroyed object is undefined behaviour in C++ and is a [Fault] here. *)

From Stdlib Require Import String.
From stdpp Require Import base option gmap fin_maps list strings.

Local Open Scope string_scope.

(** ** Pointers

    An address is a natural number; a C++ pointer is [option nat], with
    [None] for [nullptr]. *)

Abbreviation addr := nat (only parsing).
Abbreviation ptr := (option nat) (only parsing).
Abbreviation nullptr := (@None nat) (only parsing).

(** ** The two templates as records

    [ManagedHandle<T>] and [ManagedBase<T>] read the same in both headers
    (monowrapper.h 27-121, MonoWrapper.h 14-108). *)

Module ManagedHandle.

(** [template <class T> class ManagedHandle]: [T* m_object; bool m_valid]. *)
Record t := mk { m_object : ptr; m_valid : bool }.

(** [void Invalidate() { m_valid = false; }] *)
Definition Invalidate (h : t) : t := mk (m_object h) false.

(** [void Validate() { m_valid = true; }] *)
Definition Validate (h : t) : t := mk (m_object h) true.

(** [bool Valid() const { return m_valid; }] *)
Definition Valid (h : t) : bool := m_valid h.

End ManagedHandle.

Module ManagedBase.

(** [template <class T> class ManagedBase]: [HandleT m_handle; bool m_valid]. *)
Record t := mk { m_handle : ptr; m_valid : bool }.

(** [ManagedBase() : m_handle(nullptr), m_valid(false) {}] *)
Definition init : t := mk nullptr false.

Definition set_m_handle (p : ptr) (e : t) : t := mk p (m_valid e).
Definition set_m_valid (b : bool) (e : t) : t := mk (m_handle e) b.

End ManagedBase.

(** ** The store and the monad of member functions *)

Record Heap := mkHeap {
  handles : gmap nat ManagedHandle.t;   (* live ManagedHandle<T> objects *)
  objects : gmap nat ManagedBase.t      (* live ManagedBase<T> subobjects *)
}.

Inductive fault :=
  | NullDeref
  | DanglingHandle (a : nat)
  | DanglingObject (a : nat).

Inductive outcome (A : Type) :=
  | Ok (a : A) (s : Heap)
  | Fault (f : fault).
Arguments Ok {A} a s.
Arguments Fault {A} f.

Definition M (A : Type) : Type := Heap -> outcome A.

Definition ret {A} (a : A) : M A := fun s => Ok a s.

Definition bind {A B} (m : M A) (k : A -> M B) : M B :=
  fun s => match m s with
           | Ok a s' => k a s'
           | Fault f => Fault f
           end.

Declare Scope heap_scope.
Delimit Scope heap_scope with heap.
Notation "x <- m ;; k" := (bind m (fun x => k))
  (at level 100, m at next level, right associativity) : heap_scope.
Notation "m ;;; k" := (bind m (fun _ => k))
  (at level 100, right associativity) : heap_scope.
Local Open Scope heap_scope.

(** Reading through a [ManagedHandle<T>*]. *)
Definition load_handle (p : ptr) : M ManagedHandle.t :=
  fun s => match p with
           | None => Fault NullDeref
           | Some a => match handles s !! a with
                       | Some h => Ok h s
                       | None => Fault (DanglingHandle a)
                       end
           end.

(** Writing a member through a [ManagedHandle<T>*]. *)
Definition update_handle (p : ptr) (f : ManagedHandle.t -> ManagedHandle.t) : M unit :=
  fun s => match p with
           | None => Fault NullDeref
           | Some a => match handles s !! a with
                       | Some h => Ok tt (mkHeap (<[a := f h]> (handles s)) (objects s))
                       | None => Fault (DanglingHandle a)
                       end
           end.

(** Reading through a [T*] (the [ManagedBase<T>] subobject of [T]). *)
Definition load_object (p : ptr) : M ManagedBase.t :=
  fun s => match p with
           | None => Fault NullDeref
           | Some a => match objects s !! a with
                       | Some e => Ok e s
                       | None => Fault (DanglingObject a)
                       end
           end.

(** Writing a member through a [T*]. *)
Definition update_object (p : ptr) (f : ManagedBase.t -> ManagedBase.t) : M unit :=
  fun s => match p with
           | None => Fault NullDeref
           | Some a => match objects s !! a with
                       | Some e => Ok tt (mkHeap (handles s) (<[a := f e]> (objects s)))
                       | None => Fault (DanglingObject a)
                       end
           end.

(** Storage of a handle comes to life / goes away. *)
Definition alloc_handle (a : nat) (h : ManagedHandle.t) : M unit :=
  fun s => Ok tt (mkHeap (<[a := h]> (handles s)) (objects s)).

Definition free_handle (a : nat) : M unit :=
  fun s => Ok tt (mkHeap (delete a (handles s)) (objects s)).

Definition alloc_object (a : nat) (e : ManagedBase.t) : M unit :=
  fun s => Ok tt (mkHeap (handles s) (<[a := e]> (objects s))).

Definition free_object (a : nat) : M unit :=
  fun s => Ok tt (mkHeap (handles s) (delete a (objects s))).

(** ** Member functions of [ManagedHandle<T>] called through a pointer *)

(** [handle->Invalidate()] *)
Definition Invalidate (handle : ptr) : M unit :=
  update_handle handle ManagedHandle.Invalidate.

(** [handle->Validate()] *)
Definition Validate (handle : ptr) : M unit :=
  update_handle handle ManagedHandle.Validate.

(** [handle->Valid()] *)
Definition Valid (handle : ptr) : M bool :=
  h <- load_handle handle ;; ret (ManagedHandle.Valid h).

(** ** Member functions of [ManagedBase<T>] (monowrapper.h 96-120) *)

(** [[
    void AttachHandle(HandleT handle) {
        handle->Validate();
        m_handle = handle;
        if (m_valid) m_handle->Validate();
        else         m_handle->Invalidate();
    }
    ]] *)
Definition AttachHandle (this : ptr) (handle : ptr) : M unit :=
  Validate handle ;;;
  update_object this (ManagedBase.set_m_handle handle) ;;;
  e <- load_object this ;;
  if ManagedBase.m_valid e
  then Validate (ManagedBase.m_handle e)
  else Invalidate (ManagedBase.m_handle e).

(** [[
    void DetachHandle(HandleT handle) {
        handle->Invalidate();
        m_handle = nullptr;
    }
    ]] *)
Definition DetachHandle (this : ptr) (handle : ptr) : M unit :=
  Invalidate handle ;;;
  update_object this (ManagedBase.set_m_handle nullptr).

(** [[
    virtual void InvalidateHandle() {
        if (m_handle) m_handle->Invalidate();
        m_valid = false;
    }
    ]] *)
Definition InvalidateHandle (this : ptr) : M unit :=
  e <- load_object this ;;
  match ManagedBase.m_handle e with
  | Some _ => Invalidate (ManagedBase.m_handle e)
  | None => ret tt
  end ;;;
  update_object this (ManagedBase.set_m_valid false).

(** [[
    virtual void ValidateHandle() {
        if (m_handle) m_handle->Validate();
        m_valid = true;
    }
    ]] *)
Definition ValidateHandle (this : ptr) : M unit :=
  e <- load_object this ;;
  match ManagedBase.m_handle e with
  | Some _ => Validate (ManagedBase.m_handle e)
  | None => ret tt
  end ;;;
  update_object this (ManagedBase.set_m_valid true).

(** ** Constructors and destructors *)

(** [[
    ManagedHandle(T* obj) : m_object(obj), m_valid(false) {
        m_object->AttachHandle(this);
    }
    ]]
    [this] is the storage the caller provides for the new handle. *)
Definition ManagedHandle_ctor (this : nat) (obj : ptr) : M unit :=
  alloc_handle this (ManagedHandle.mk obj false) ;;;
  h <- load_handle (Some this) ;;
  AttachHandle (ManagedHandle.m_object h) (Some this).

(** [[
    virtual ~ManagedHandle() {
        if (m_object && m_valid)
            m_object->DetachHandle(this);
    }
    ]]
    after which the storage of the handle is gone. *)
Definition ManagedHandle_dtor (this : nat) : M unit :=
  h <- load_handle (Some this) ;;
  match ManagedHandle.m_object h with
  | Some _ =>
      if ManagedHandle.m_valid h
      then DetachHandle (ManagedHandle.m_object h) (Some this)
      else ret tt
  | None => ret tt
  end ;;;
  free_handle this.

(** [ManagedHandle<T>] deletes its default constructor only (line 53), so
    the compiler declares its copy constructor and its copy assignment;
    both copy the two members and call nothing:
    [[
    ManagedHandle(const ManagedHandle& other)
        : m_object(other.m_object), m_valid(other.m_valid) {}
    ]]
    No [AttachHandle] runs, the entity does not learn of the copy. *)
Definition ManagedHandle_copy_ctor (this : nat) (other : ptr) : M unit :=
  o <- load_handle other ;;
  alloc_handle this (ManagedHandle.mk (ManagedHandle.m_object o)
                                      (ManagedHandle.m_valid o)).

(** [[
    ManagedHandle& operator=(const ManagedHandle& other) {
        m_object = other.m_object;  m_valid = other.m_valid;  return *this;
    }
    ]] *)
Definition ManagedHandle_copy_assign (this : ptr) (other : ptr) : M unit :=
  o <- load_handle other ;;
  update_handle this (λ _, ManagedHandle.mk (ManagedHandle.m_object o)
                                            (ManagedHandle.m_valid o)).

(** [ManagedBase() : m_handle(nullptr), m_valid(false) {}] at storage [this]. *)
Definition ManagedBase_ctor (this : nat) : M unit :=
  alloc_object this ManagedBase.init.

(** The destructor of the two entity classes whose destructor the headers
    determine: [ManagedType] declares none in either header, so it has the
    implicit one, and [ManagedAssembly] has [virtual ~ManagedAssembly() {};]
    (monowrapper.h 148; none declared in MonoWrapper.h).  [ManagedBase<T>]
    declares no destructor either, so destroying such an entity gives up
    its storage and touches neither [m_handle] nor the handle it points
    to.  The destructors of [ManagedObject], [ManagedMethod],
    [ManagedField], [ManagedProperty] and [ManagedClass] are declared
    without a body and are not what this definition describes. *)
Definition ManagedBase_dtor (this : nat) : M unit :=
  _ <- load_object (Some this) ;;
  free_object this.

(** ** Traces of protocol calls

    The calls on the two templates that change the store, one at a time:
    every member function the headers define for [ManagedHandle<T>] and
    [ManagedBase<T>] (the protected ones are open to the entity class and
    to the other template, which are friends), the copy constructor and
    copy assignment the compiler declares for [ManagedHandle<T>], and the
    construction and destruction of an entity.  The readers [Valid],
    [operator*] and [operator->] change nothing and are not in traces.
    The entity classes delete their copy and move constructors (lines
    142-143, 186-187, ...), which removes their copy assignment as well;
    assigning the [ManagedBase<T>] subobject alone, by its qualified name,
    is not among the calls. *)

Inductive op :=
  | OpNewObject (e : nat)            (* construct an entity at [e] *)
  | OpDeleteObject (e : nat)         (* destroy the entity at [e], see [ManagedBase_dtor] *)
  | OpNewHandle (h : nat) (e : nat)  (* [ManagedHandle<T> h(e)] *)
  | OpDeleteHandle (h : nat)         (* [h.~ManagedHandle()] *)
  | OpAttach (e h : nat)             (* [e->AttachHandle(h)] *)
  | OpDetach (e h : nat)             (* [e->DetachHandle(h)] *)
  | OpInvalidate (e : nat)           (* [e->InvalidateHandle()] *)
  | OpValidate (e : nat)             (* [e->ValidateHandle()] *)
  | OpCopyHandle (h src : nat)       (* [ManagedHandle<T> h(src)], a copy *)
  | OpAssignHandle (h src : nat)     (* [h = src] *)
  | OpHandleValidate (h : nat)       (* [h->Validate()], by a friend *)
  | OpHandleInvalidate (h : nat).    (* [h->Invalidate()], by a friend *)

Definition step (o : op) : M unit :=
  match o with
  | OpNewObject e => ManagedBase_ctor e
  | OpDeleteObject e => ManagedBase_dtor e
  | OpNewHandle h e => ManagedHandle_ctor h (Some e)
  | OpDeleteHandle h => ManagedHandle_dtor h
  | OpAttach e h => AttachHandle (Some e) (Some h)
  | OpDetach e h => DetachHandle (Some e) (Some h)
  | OpInvalidate e => InvalidateHandle (Some e)
  | OpValidate e => ValidateHandle (Some e)
  | OpCopyHandle h src => ManagedHandle_copy_ctor h (Some src)
  | OpAssignHandle h src => ManagedHandle_copy_assign (Some h) (Some src)
  | OpHandleValidate h => Validate (Some h)
  | OpHandleInvalidate h => Invalidate (Some h)
  end.

Fixpoint run (os : list op) : M unit :=
  match os with
  | [] => ret tt
  | o :: os' => step o ;;; run os'
  end.

(** The store before anything is constructed. *)
Definition empty_heap : Heap := mkHeap ∅ ∅.

(** What an observer at [h] reports in store [s]: [Some b] when the handle
    is live and [Valid()] returns [b]. *)
Definition reports (s : Heap) (h : nat) : option bool :=
  ManagedHandle.Valid <$> handles s !! h.




(** The pair (entity [e], observer [h]) is detached: the entity does not
    point at the observer and the observer reports invalid. *)
Definition detached (s : Heap) (e h : nat) : bool :=
  match objects s !! e with
  | Some E => bool_decide (ManagedBase.m_handle E ≠ Some h)
  | None => false
  end && bool_decide (reports s h = Some false).

(** Concrete stores used below: a valid entity at address 1. *)
Definition live_entity : list op := [OpNewObject 1; OpValidate 1].

(** A valid entity at 1 with the observers 10 and 11 constructed on it, in
    this order: [m_handle] holds the later one. *)
Definition two_observers : Heap :=
  mkHeap {[ 10 := ManagedHandle.mk (Some 1) true;
            11 := ManagedHandle.mk (Some 1) true ]}
         {[ 1 := ManagedBase.mk (Some 11) true ]}.

(** A valid entity at 1 with the single observer 10. *)
Definition one_observer : Heap :=
  mkHeap {[ 10 := ManagedHandle.mk (Some 1) true ]}
         {[ 1 := ManagedBase.mk (Some 10) true ]}.

(** The same after [InvalidateHandle] on the entity. *)
Definition one_observer_invalidated : Heap :=
  mkHeap {[ 10 := ManagedHandle.mk (Some 1) false ]}
         {[ 1 := ManagedBase.mk (Some 10) false ]}.

(** Observer 10 was detached from the entity at 1, then observer 11 was
    constructed on it. *)
Definition detached_then_other : Heap :=
  mkHeap {[ 10 := ManagedHandle.mk (Some 1) false;
            11 := ManagedHandle.mk (Some 1) true ]}
         {[ 1 := ManagedBase.mk (Some 11) true ]}.


(** A valid entity at 1 and a live observer 10 not yet attached to it. *)
Definition unattached : Heap :=
  mkHeap {[ 10 := ManagedHandle.mk (Some 1) false ]}
         {[ 1 := ManagedBase.mk nullptr true ]}.

(** ** Special member functions

    [X(const X&) = delete;] removes the operation from the type: a use of
    it does not compile.  A class's declarations are a record, and the
    copy of a value exists only when the copy constructor does. *)

Inductive member_decl := deleted | provided.

Record special_members := mkSpecial {
  default_constructor : member_decl;
  copy_constructor : member_decl;
  move_constructor : member_decl
}.

Definition copy_construct (d : special_members) {A : Type} (x : A) : option A :=
  match copy_constructor d with
  | provided => Some x
  | deleted => None
  end.

(** ** [EManagedObjectHandleType] and [ManagedObject] (monowrapper.h 225-307) *)

Inductive EManagedObjectHandleType :=
  | HANDLE
  | HANDLE_PINNED
  | WEAKREF.

(** The enumerators' values: [HANDLE = 0, HANDLE_PINNED = 1, WEAKREF = 2]. *)
Definition handle_type_value (k : EManagedObjectHandleType) : nat :=
  match k with
  | HANDLE => 0
  | HANDLE_PINNED => 1
  | WEAKREF => 2
  end.

Module ManagedObject.

(** [class ManagedObject : public ManagedBase<ManagedObject>] with
    [MonoObject* m_obj; ManagedClass* m_class; uint32_t m_gcHandle = 0;
     EManagedObjectHandleType m_handleType = HANDLE_PINNED;]. *)
Record t := mk {
  base : ManagedBase.t;
  m_obj : ptr;
  m_class : ptr;
  m_gcHandle : N;
  m_handleType : EManagedObjectHandleType
}.

(** The default member initialisers of lines 259-260. *)
Definition default_gcHandle : N := 0%N.
Definition default_handleType : EManagedObjectHandleType := HANDLE_PINNED.

(** The default argument of the constructor's declaration (line 274):
    [EManagedObjectHandleType type = EManagedObjectHandleType::HANDLE_PINNED]. *)
Definition default_type_argument : EManagedObjectHandleType := HANDLE_PINNED.

(** Lines 269-271: all three are [= delete]. *)
Definition special : special_members := mkSpecial deleted deleted deleted.

(** [ManagedObject N(M);] *)
Definition copy (m : t) : option t := copy_construct special m.

(** [EManagedObjectHandleType GCHandleType() { return m_handleType; }] *)
Definition GCHandleType (m : t) : EManagedObjectHandleType := m_handleType m.

(** [ManagedObjectHandle GCHandle() { return m_gcHandle; }] *)
Definition GCHandle (m : t) : N := m_gcHandle m.

Section Runtime.

(** The runtime's GC-handle constructor for a kind and an object
    ([mono_gchandle_new], [mono_gchandle_new_weakref]). *)
Variable gchandle_new : EManagedObjectHandleType -> ptr -> N.

(** Modelled from the spec: the body of
    [ManagedObject(MonoObject* obj, ManagedClass& cls, EManagedObjectHandleType type)]
    is not in the headers.  Section 3: a ManagedObject holds "class
    back-ref, GC handle id, handle kind" and "acquire[s] a GC handle at
    construction".  [type = None] is a call that omits the third
    argument, which the declaration's default then supplies. *)
Definition ctor (obj : ptr) (cls : ptr)
    (type : option EManagedObjectHandleType) : t :=
  let k := default default_type_argument type in
  mk ManagedBase.init obj cls (gchandle_new k obj) k.

(** The runtime's constructor lookup and invocation. *)
Variable find_constructor : ptr -> list nat -> option nat.
Variable runtime_invoke : nat -> list nat -> ptr.

(** Modelled from the spec: [ManagedClass::CreateInstance] is declared
    (line 539) but not defined in the headers.  Section 4.4: "locates a
    constructor matching signatureTypes, invokes it, wraps the resulting
    runtime object in a ManagedObject with a pinned GC handle by
    default.  Fails when no constructor matches." *)
Definition CreateInstance (cls : ptr) (signature : list nat)
    (params : list nat) : option t :=
  match find_constructor cls signature with
  | Some method => Some (ctor (runtime_invoke method params) cls None)
  | None => None
  end.

End Runtime.

End ManagedObject.

(** ** [ManagedException_t] (monowrapper.h 68-76) *)

Module ManagedException_t.

Record t := mk {
  message : string;
  stackTrace : string;
  source : string;
  klass : string;
  ns : string;
  string_rep : string   (* object.ToString of the exception *)
}.

(** The members in declaration order, each with its value. *)
Definition fields (e : t) : list (string * string) :=
  [ ("message", message e); ("stackTrace", stackTrace e);
    ("source", source e); ("klass", klass e); ("ns", ns e);
    ("string_rep", string_rep e) ].

(** The struct as the tuple of its members, and back. *)
Definition to_tuple (e : t)
    : string * string * string * string * string * string :=
  (message e, stackTrace e, source e, klass e, ns e, string_rep e).

Definition of_tuple
    (p : string * string * string * string * string * string) : t :=
  let '(m, st, src, k, n, r) := p in mk m st src k n r.

(** Aggregate initialisation [ManagedException_t{v1, ..., vk}]: the
    initialisers go to the members in declaration order, a member without
    an initialiser is an empty string, and more initialisers than members
    do not compile. *)
Definition of_values (vs : list string) : option t :=
  if decide (length vs ≤ 6)%nat
  then Some (mk (nth 0 vs "") (nth 1 vs "") (nth 2 vs "")
                (nth 3 vs "") (nth 4 vs "") (nth 5 vs ""))
  else None.

End ManagedException_t.

(** The struct of the older header (MonoWrapper.h 50-55), which has no
    [GetExceptionDescriptor]: three members only. *)
Module Legacy.

Record ManagedException_t := mkException {
  message : string;
  stackTrace : string;
  source : string
}.

Definition of_current (e : ManagedException_t.t) : ManagedException_t :=
  mkException (ManagedException_t.message e)
              (ManagedException_t.stackTrace e)
              (ManagedException_t.source e).

End Legacy.


(** ** The reflection cache of an assembly (monowrapper.h 127-168, 454-560)

    [ManagedAssembly::PopulateReflectionInfo], [DisposeReflectionInfo] and
    [ManagedClass::PopulateReflectionInfo] are declared in the headers and
    defined elsewhere; the headers give the members they work on
    ([m_classes], [m_populated], [m_methods], [m_fields], [m_properties]). *)

(** One type row of a runtime image, with what the runtime enumerates for
    it: the names of its methods, fields and properties. *)
Record TypeRow := mkRow {
  row_namespace : string;
  row_name : string;
  row_methods : list string;
  row_fields : list string;
  row_properties : list string
}.

Module ManagedClass.

(** The members of [ManagedClass] the cache is about; [node] is the address
    of the heap node ([new ManagedClass(...)]). *)
Record t := mk {
  node : nat;
  m_namespaceName : string;
  m_className : string;
  m_methods : list string;
  m_fields : list string;
  m_properties : list string;
  m_populated : bool
}.

(** [ManagedClass(ManagedAssembly*, MonoClass*, const std::string& ns,
    const std::string& cls)]: nothing cached yet. *)
Definition ctor (this : nat) (ns cls : string) : t :=
  mk this ns cls [] [] [] false.

(** Modelled from the spec: [ManagedClass::PopulateReflectionInfo] is not
    in the headers.  Section 3: in a populated assembly "every class's
    Methods/Fields/Properties/Attributes vectors are complete"; section
    4.4: they "are populated once and thereafter constant". *)
Definition PopulateReflectionInfo (r : TypeRow) (c : t) : t :=
  if m_populated c then c
  else mk (node c) (m_namespaceName c) (m_className c)
          (row_methods r) (row_fields r) (row_properties r) true.

End ManagedClass.

Module ManagedAssembly.

(** [m_image] is what the runtime reports for [MonoImage* m_image];
    [m_classes] is the [std::unordered_multimap<std::string, ManagedClass*>]
    as an association list (duplicates of a key are kept); [next_node] is
    the allocator's next free address for a class node. *)
Record t := mk {
  m_image : list TypeRow;
  m_classes : list (string * ManagedClass.t);
  m_populated : bool;
  next_node : nat
}.

(** A freshly loaded assembly, before any population. *)
Definition ctor (img : list TypeRow) (next : nat) : t := mk img [] false next.

(** The loop over the image's rows: construct a class node, populate it,
    insert it in the multimap under its simple name. *)
Fixpoint populate_rows (rows : list TypeRow) (next : nat)
    (classes : list (string * ManagedClass.t))
    : list (string * ManagedClass.t) * nat :=
  match rows with
  | [] => (classes, next)
  | r :: rows' =>
      let c := ManagedClass.PopulateReflectionInfo r
                 (ManagedClass.ctor next (row_namespace r) (row_name r)) in
      populate_rows rows' (S next) (classes ++ [(row_name r, c)])
  end.

(** Modelled from the spec: [ManagedAssembly::PopulateReflectionInfo] is
    not in the headers.  Section 4.5: "Enumerates every type row in the
    image: for each, constructs a Class node, inserts it into a by-name
    multimap [...], triggers its population, and stores the node in the
    assembly's class table.  Idempotent: second call is a no-op if already
    populated." *)
Definition PopulateReflectionInfo (a : t) : t :=
  if m_populated a then a
  else
    let '(classes, next) := populate_rows (m_image a) (next_node a) (m_classes a) in
    mk (m_image a) classes true next.

(** Modelled from the spec: [ManagedAssembly::DisposeReflectionInfo] is not
    in the headers.  Section 4.5: "invalidates every class's handle,
    destroys its Method/Field/Property/Attribute children, then clears the
    class table, then sets populated-flag false."  The class nodes are
    destroyed with the table; their addresses are not handed out again. *)
Definition DisposeReflectionInfo (a : t) : t :=
  mk (m_image a) [] false (next_node a).

(** What the round trip compares: per class its key, namespace, name and
    the numbers of methods, fields and properties. *)
Definition class_counts (cs : list (string * ManagedClass.t))
    : list (string * string * string * nat * nat * nat) :=
  map (λ kc, (kc.1, ManagedClass.m_namespaceName kc.2,
              ManagedClass.m_className kc.2,
              length (ManagedClass.m_methods kc.2),
              length (ManagedClass.m_fields kc.2),
              length (ManagedClass.m_properties kc.2))) cs.

(** The same numbers read off the image. *)
Definition image_counts (rows : list TypeRow)
    : list (string * string * string * nat * nat * nat) :=
  map (λ r, (row_name r, row_namespace r, row_name r,
             length (row_methods r), length (row_fields r),
             length (row_properties r))) rows.

(** The states an assembly goes through: constructed, then any sequence of
    populate and dispose. *)
Inductive reachable : t → Prop :=
  | reach_ctor img next : reachable (ctor img next)
  | reach_populate a : reachable a → reachable (PopulateReflectionInfo a)
  | reach_dispose a : reachable a → reachable (DisposeReflectionInfo a).

(** The cache is empty when unpopulated and mirrors the image when
    populated. *)
Definition coherent (a : t) : Prop :=
  if m_populated a
  then class_counts (m_classes a) = image_counts (m_image a)
  else m_classes a = [].

(** Equal as far as a caller can tell: both populated or both not, over
    the same image, with the same classes and counts per class. *)
Definition semantically_equal (a b : t) : Prop :=
  m_populated a = m_populated b ∧
  m_image a = m_image b ∧
  class_counts (m_classes a) = class_counts (m_classes b).

End ManagedAssembly.

(** An image with two types that share their simple name. *)
Definition sample_image : list TypeRow :=
  [ mkRow "Sample" "Greeter" ["Greet"; ".ctor"] ["name"] [];
    mkRow "Other" "Greeter" [] [] ["Count"] ].

(** A freshly loaded assembly over that image. *)
Definition fresh_assembly : ManagedAssembly.t :=
  ManagedAssembly.ctor sample_image 100.

(** ** More of the headers: dereferencing a handle, usage discipline,
    callback registration *)

(** [T& operator*() { return *m_object; }] and
    [T& operator->() { return *m_object; }] (monowrapper.h 59-65): the
    entity behind the handle, read without a look at [m_valid]. *)
Definition operator_star (this : ptr) : M ManagedBase.t :=
  h <- load_handle this ;;
  load_object (ManagedHandle.m_object h).










Module ManagedScriptContext.

Section Callbacks.

(** [ExceptionCallbackT], a [std::function]; what it does when called is
    not the header's business. *)
Variable ExceptionCallbackT : Type.

(** The members of [ManagedScriptContext] (monowrapper.h 570-587). *)
Record t := mk {
  m_loadedAssemblies : list nat;
  m_domain : ptr;
  m_baseImage : string;
  m_initialized : bool;
  m_callbacks : list ExceptionCallbackT
}.

(** [[
    void RegisterExceptionCallback(ExceptionCallbackT callback) {
        m_callbacks.push_back(callback);
    }
    ]] *)
Definition RegisterExceptionCallback (callback : ExceptionCallbackT) (c : t) : t :=
  mk (m_loadedAssemblies c) (m_domain c) (m_baseImage c) (m_initialized c)
     (m_callbacks c ++ [callback]).

(** [MonoDomain* RawDomain() const { return m_domain; }] *)
Definition RawDomain (c : t) : ptr := m_domain c.

(** A caller registering several callbacks, one call each. *)
Definition register_all (cbs : list ExceptionCallbackT) (c : t) : t :=
  fold_left (λ c cb, RegisterExceptionCallback cb c) cbs c.

End Callbacks.

End ManagedScriptContext.

(** ** The exception pipeline (monowrapper.h 583-587, 618, 626) *)

Module ExceptionPipeline.

Section Pipeline.

(** What the runtime gives for a raised object: the values of its
    [Message], [StackTrace] and [Source] properties, the name and the
    namespace of its class, and [object.ToString]. *)
Variable exc_message : ptr → string.
Variable exc_stackTrace : ptr → string.
Variable exc_source : ptr → string.
Variable exc_class : ptr → string.
Variable exc_namespace : ptr → string.
Variable exc_to_string : ptr → string.

(** Modelled from the spec: the body of
    [ManagedException_t GetExceptionDescriptor(MonoObject* exception)]
    (declared at line 618) is not in the headers.  Section 4.6: "extracts
    message, stack trace, source, class name, namespace, and stringified
    representation from a raised managed object into a pure-data record". *)
Definition GetExceptionDescriptor (exception : ptr) : ManagedException_t.t :=
  ManagedException_t.mk (exc_message exception) (exc_stackTrace exception)
    (exc_source exception) (exc_class exception) (exc_namespace exception)
    (exc_to_string exception).

(** What the callbacks act on (their captures). *)
Variable World : Type.

(** [using ExceptionCallbackT = std::function<void(ManagedScriptContext*,
    ManagedAssembly*, MonoObject*, ManagedException_t)>] (lines 583-584):
    the descriptor is passed by value. *)
Definition ExceptionCallbackT : Type :=
  ptr → ptr → ptr → ManagedException_t.t → World → World.

(** Modelled from the spec: [ReportException(MonoObject& obj,
    ManagedAssembly& ass)] is declared (line 626) and not defined in the
    headers.  Section 4.6: "builds the descriptor, then invokes every
    registered exception callback in registration order with (context,
    assembly, raw-exception, descriptor)".  [this] is the address of the
    context. *)
Definition ReportException (this : ptr)
    (c : ManagedScriptContext.t ExceptionCallbackT) (obj ass : ptr)
    (w : World) : World :=
  let d := GetExceptionDescriptor obj in
  fold_left (λ w cb, cb this ass obj d w)
            (ManagedScriptContext.m_callbacks ExceptionCallbackT c) w.

End Pipeline.

(** A callback that notes its own number and the descriptor it is given. *)
Definition recorder (i : nat)
    : ExceptionCallbackT (list (nat * ManagedException_t.t)) :=
  λ _ _ _ d w, (w ++ [(i, d)])%list.

End ExceptionPipeline.

(** A store in which entity 1 is valid and has no observer. *)
Definition lone_entity : Heap :=
  mkHeap ∅ {[ 1 := ManagedBase.mk nullptr true ]}.

(** * Proofs *)

(** ** Running member functions symbolically *)

Ltac unfold_M :=
  unfold step, ManagedBase_ctor, ManagedBase_dtor, ManagedHandle_ctor,
    ManagedHandle_dtor, ManagedHandle_copy_ctor, ManagedHandle_copy_assign,
    AttachHandle, DetachHandle, InvalidateHandle,
    ValidateHandle, Valid, Validate, Invalidate, update_handle, update_object,
    load_handle, load_object, alloc_handle, free_handle, alloc_object,
    free_object, bind, ret in *.

Ltac map_cases :=
  repeat match goal with
  | H : context [<[_ := _]> _ !! _] |- _ =>
      rewrite lookup_insert in H; case_decide; simplify_eq/=
  | H : context [delete _ _ !! _] |- _ =>
      rewrite lookup_delete in H; case_decide; simplify_eq/=
  | |- context [<[_ := _]> _ !! _] =>
      rewrite lookup_insert; case_decide; simplify_eq/=
  | |- context [delete _ _ !! _] =>
      rewrite lookup_delete; case_decide; simplify_eq/=
  end.

Ltac exec_M := unfold_M; simplify_eq/=; repeat (case_match; simplify_eq/=).

(** ** The concrete stores are the ones the calls build *)

Lemma two_observers_reached :
  run (live_entity ++ [OpNewHandle 10 1; OpNewHandle 11 1]) empty_heap
  = Ok tt two_observers.
Proof. vm_compute. reflexivity. Qed.


Lemma one_observer_invalidated_reached :
  InvalidateHandle (Some 1) one_observer = Ok tt one_observer_invalidated.
Proof. vm_compute. reflexivity. Qed.

Lemma detached_then_other_reached :
  run (live_entity ++ [OpNewHandle 10 1; OpDetach 1 10; OpNewHandle 11 1])
      empty_heap
  = Ok tt detached_then_other.
Proof. vm_compute. reflexivity. Qed.

(** ** Closed forms of the four [ManagedBase] calls *)

Lemma AttachHandle_live s e E h H :
  objects s !! e = Some E → handles s !! h = Some H →
  AttachHandle (Some e) (Some h) s =
  Ok tt (mkHeap (<[h := ManagedHandle.mk (ManagedHandle.m_object H) (ManagedBase.m_valid E)]> (handles s))
                (<[e := ManagedBase.mk (Some h) (ManagedBase.m_valid E)]> (objects s))).
Proof.
  intros HE HH. unfold_M. rewrite HH. simpl. rewrite HE. simpl.
  rewrite lookup_insert_eq. simpl.
  destruct E as [p []]; simpl; rewrite ?lookup_insert_eq; simpl;
    by rewrite ?insert_insert_eq.
Qed.

Lemma DetachHandle_live s e E h H :
  objects s !! e = Some E → handles s !! h = Some H →
  DetachHandle (Some e) (Some h) s =
  Ok tt (mkHeap (<[h := ManagedHandle.mk (ManagedHandle.m_object H) false]> (handles s))
                (<[e := ManagedBase.mk nullptr (ManagedBase.m_valid E)]> (objects s))).
Proof. intros HE HH. unfold_M. rewrite HH. simpl. by rewrite HE. Qed.

Lemma InvalidateHandle_stored s e E h H :
  objects s !! e = Some E → ManagedBase.m_handle E = Some h →
  handles s !! h = Some H →
  InvalidateHandle (Some e) s =
  Ok tt (mkHeap (<[h := ManagedHandle.mk (ManagedHandle.m_object H) false]> (handles s))
                (<[e := ManagedBase.mk (Some h) false]> (objects s))).
Proof.
  intros HE Hh HH. destruct E as [p v]; simpl in *; subst.
  unfold_M. rewrite HE. simpl. rewrite HH. simpl. by rewrite HE.
Qed.

Lemma InvalidateHandle_none s e E :
  objects s !! e = Some E → ManagedBase.m_handle E = None →
  InvalidateHandle (Some e) s =
  Ok tt (mkHeap (handles s) (<[e := ManagedBase.mk nullptr false]> (objects s))).
Proof.
  intros HE Hh. destruct E as [p v]; simpl in *; subst.
  unfold_M. rewrite HE. simpl. by rewrite HE.
Qed.

Lemma ValidateHandle_stored s e E h H :
  objects s !! e = Some E → ManagedBase.m_handle E = Some h →
  handles s !! h = Some H →
  ValidateHandle (Some e) s =
  Ok tt (mkHeap (<[h := ManagedHandle.mk (ManagedHandle.m_object H) true]> (handles s))
                (<[e := ManagedBase.mk (Some h) true]> (objects s))).
Proof.
  intros HE Hh HH. destruct E as [p v]; simpl in *; subst.
  unfold_M. rewrite HE. simpl. rewrite HH. simpl. by rewrite HE.
Qed.

Lemma stale_handle_faults s e E h :
  objects s !! e = Some E → ManagedBase.m_handle E = Some h →
  handles s !! h = None →
  ValidateHandle (Some e) s = Fault (DanglingHandle h) ∧
  InvalidateHandle (Some e) s = Fault (DanglingHandle h).
Proof.
  intros HE Hh HH. destruct E as [p v]; simpl in *; subst.
  unfold_M. rewrite HE. simpl. by rewrite HH.
Qed.


Lemma Heap_eq s1 s2 :
  handles s1 = handles s2 → objects s1 = objects s2 → s1 = s2.
Proof. destruct s1, s2; simpl; congruence. Qed.

(** ** Traces without [ValidateHandle] *)






(** ** The handle protocol *)

(** C1, as the code has it: on a live entity whose [m_handle] is null or
    holds the address of a live observer, [InvalidateHandle] marks the
    entity invalid and, in the same call, sets to false the valid flag of
    the observer whose address [m_handle] holds, if any; [m_handle], that
    observer's [m_object], every other observer and every other entity are
    left as they were.  So an observer constructed on the entity whose
    address [m_handle] does not hold (a later attach replaced it, or a
    detach reset [m_handle] to null) is not marked. *)
Theorem C1_invalidate_marks_stored_observer (s : Heap) (e : nat) (E : ManagedBase.t) :
  objects s !! e = Some E →
  (∀ h, ManagedBase.m_handle E = Some h → is_Some (handles s !! h)) →
  ∃ s', InvalidateHandle (Some e) s = Ok tt s' ∧
        objects s' !! e = Some (ManagedBase.mk (ManagedBase.m_handle E) false) ∧
        (∀ h H, ManagedBase.m_handle E = Some h → handles s !! h = Some H →
              handles s' !! h
                = Some (ManagedHandle.mk (ManagedHandle.m_object H) false) ∧
              Valid (Some h) s' = Ok false s') ∧
        (∀ h, ManagedBase.m_handle E ≠ Some h →
              handles s' !! h = handles s !! h) ∧
        (∀ e', e' ≠ e → objects s' !! e' = objects s !! e').
Proof.
  intros HE Hlive. destruct (ManagedBase.m_handle E) as [h|] eqn:Hh.
  - destruct (Hlive h eq_refl) as [H HH].
    eexists. split; [by eapply InvalidateHandle_stored|]. simpl.
    split; [by rewrite lookup_insert_eq|]. split; [|split].
    + intros h' H' [= <-] HH'. simplify_eq.
      unfold Valid, bind, load_handle, ret. simpl.
      by rewrite lookup_insert_eq.
    + intros h' Hne. rewrite lookup_insert_ne; [done | congruence].
    + intros e' Hne. by rewrite lookup_insert_ne.
  - eexists. split; [by eapply InvalidateHandle_none|]. simpl.
    split; [by rewrite lookup_insert_eq|]. split; [done|]. split; [done|].
    intros e' Hne. by rewrite lookup_insert_ne.
Qed.

Lemma C1_invalidate_marks_stored_observer_witness :
  ∃ s', InvalidateHandle (Some 1) two_observers = Ok tt s' ∧
        objects s' !! 1 = Some (ManagedBase.mk (Some 11) false) ∧
        (∀ h H, Some 11 = Some h → handles two_observers !! h = Some H →
              handles s' !! h
                = Some (ManagedHandle.mk (ManagedHandle.m_object H) false) ∧
              Valid (Some h) s' = Ok false s') ∧
        (∀ h, Some 11 ≠ Some h → handles s' !! h = handles two_observers !! h) ∧
        (∀ e', e' ≠ 1 → objects s' !! e' = objects two_observers !! e').
Proof.
  apply (C1_invalidate_marks_stored_observer two_observers 1
           (ManagedBase.mk (Some 11) true)).
  - reflexivity.
  - intros h [= <-]. vm_compute. eauto.
Defined.

(** C1 as stated fails: with the observers 10 and 11 both constructed on
    the valid entity 1 (both report valid, both point at it, neither was
    detached), [InvalidateHandle] on the entity leaves observer 10
    reporting valid. *)
Lemma C1_counterexample :
  run (live_entity ++ [OpNewHandle 10 1; OpNewHandle 11 1]) empty_heap
    = Ok tt two_observers ∧
  reports two_observers 10 = Some true ∧
  reports two_observers 11 = Some true ∧
  ∃ s', InvalidateHandle (Some 1) two_observers = Ok tt s' ∧
        (ManagedBase.m_valid <$> objects s' !! 1) = Some false ∧
        Valid (Some 10) s' = Ok true s'.
Proof.
  split; [apply two_observers_reached|].
  split; [reflexivity|]. split; [reflexivity|].
  eexists. split; [vm_compute; reflexivity|].
  split; vm_compute; reflexivity.
Qed.

(** C2: [AttachHandle] on a live entity and a live observer succeeds and
    leaves the observer's [Valid()] equal to the entity's validity, with the
    entity pointing at the observer, and attaching the same pair again
    changes nothing; constructing a [ManagedHandle] on a live entity does
    the same for the new observer.  In particular an observer attached to
    an invalid entity reports invalid. *)
Theorem C2_attach_matches_entity_validity (s : Heap) (e h : nat)
    (E : ManagedBase.t) (H : ManagedHandle.t) :
  objects s !! e = Some E → handles s !! h = Some H →
  (∃ s', AttachHandle (Some e) (Some h) s = Ok tt s' ∧
         objects s' !! e = Some (ManagedBase.mk (Some h) (ManagedBase.m_valid E)) ∧
         Valid (Some h) s' = Ok (ManagedBase.m_valid E) s' ∧
         AttachHandle (Some e) (Some h) s' = Ok tt s') ∧
  (∀ this, ∃ s', ManagedHandle_ctor this (Some e) s = Ok tt s' ∧
         objects s' !! e = Some (ManagedBase.mk (Some this) (ManagedBase.m_valid E)) ∧
         handles s' !! this = Some (ManagedHandle.mk (Some e) (ManagedBase.m_valid E)) ∧
         Valid (Some this) s' = Ok (ManagedBase.m_valid E) s').
Proof.
  intros HE HH. split.
  - eexists. split; [by eapply AttachHandle_live|]. simpl.
    split; [by rewrite lookup_insert_eq|]. split.
    + unfold Valid, bind, load_handle, ret. simpl. by rewrite lookup_insert_eq.
    + erewrite AttachHandle_live; simpl; [|apply lookup_insert_eq..].
      simpl. by rewrite !insert_insert_eq.
  - intros this. unfold ManagedHandle_ctor, bind, alloc_handle, load_handle.
    simpl. rewrite lookup_insert_eq. simpl.
    erewrite AttachHandle_live; [|exact HE|simpl; apply lookup_insert_eq].
    eexists. split; [reflexivity|]. simpl.
    split; [by rewrite lookup_insert_eq|].
    split; [by rewrite lookup_insert_eq|].
    unfold Valid, bind, load_handle, ret. simpl. by rewrite lookup_insert_eq.
Qed.

Lemma C2_attach_matches_entity_validity_witness :
  (∃ s', AttachHandle (Some 1) (Some 10) unattached = Ok tt s' ∧
         objects s' !! 1 = Some (ManagedBase.mk (Some 10) true) ∧
         Valid (Some 10) s' = Ok true s' ∧
         AttachHandle (Some 1) (Some 10) s' = Ok tt s') ∧
  (∀ this, ∃ s', ManagedHandle_ctor this (Some 1) unattached = Ok tt s' ∧
         objects s' !! 1 = Some (ManagedBase.mk (Some this) true) ∧
         handles s' !! this = Some (ManagedHandle.mk (Some 1) true) ∧
         Valid (Some this) s' = Ok true s').
Proof.
  apply (C2_attach_matches_entity_validity unattached 1 10
           (ManagedBase.mk nullptr true) (ManagedHandle.mk (Some 1) false));
    reflexivity.
Defined.

(** C3, as the code has it: [DetachHandle] on a live entity and a live
    observer sets the entity's [m_handle] to null and the observer's valid
    flag to false and writes nothing else: the observer's [m_object], the
    entity's validity and every other observer and entity stay as they
    were.  Calling it twice in a row is the same as calling it once.  On
    an already detached pair it therefore changes no observer, and it
    changes nothing at all when the entity's [m_handle] is null; when
    [m_handle] holds another observer, it is reset to null all the same. *)
Theorem C3_detach_clears_link (s : Heap) (e h : nat)
    (E : ManagedBase.t) (H : ManagedHandle.t) :
  objects s !! e = Some E → handles s !! h = Some H →
  ∃ s', DetachHandle (Some e) (Some h) s = Ok tt s' ∧
        handles s'
          = <[h := ManagedHandle.mk (ManagedHandle.m_object H) false]> (handles s) ∧
        objects s'
          = <[e := ManagedBase.mk nullptr (ManagedBase.m_valid E)]> (objects s) ∧
        objects s' !! e = Some (ManagedBase.mk nullptr (ManagedBase.m_valid E)) ∧
        Valid (Some h) s' = Ok false s' ∧
        (∀ h', h' ≠ h → handles s' !! h' = handles s !! h') ∧
        (∀ e', e' ≠ e → objects s' !! e' = objects s !! e') ∧
        DetachHandle (Some e) (Some h) s' = Ok tt s' ∧
        (detached s e h = true → handles s' = handles s) ∧
        (detached s e h = true → ∀ h', reports s' h' = reports s h') ∧
        (detached s e h = true → ManagedBase.m_handle E = None → s' = s).
Proof.
  intros HE HH. eexists. split; [by eapply DetachHandle_live|]. simpl.
  split; [done|]. split; [done|].
  split; [by rewrite lookup_insert_eq|].
  split; [unfold Valid, bind, load_handle, ret; simpl;
          by rewrite lookup_insert_eq|].
  split; [by intros h' Hne; rewrite lookup_insert_ne|].
  split; [by intros e' Hne; rewrite lookup_insert_ne|].
  split.
  { erewrite DetachHandle_live; simpl; [|apply lookup_insert_eq..].
    simpl. by rewrite !insert_insert_eq. }
  assert (detached s e h = true →
          ManagedHandle.mk (ManagedHandle.m_object H) false = H) as Hsame.
  { intros [_ Hrep%bool_decide_eq_true]%andb_true_iff.
    unfold reports in Hrep. rewrite HH in Hrep. simpl in Hrep.
    destruct H as [o v]. simpl in *. by simplify_eq. }
  split; [|split].
  - intros Hd. rewrite (Hsame Hd). by apply insert_id.
  - intros Hd h'. unfold reports. simpl. rewrite (Hsame Hd).
    by rewrite insert_id.
  - intros Hd Hnull. apply Heap_eq; simpl.
    + rewrite (Hsame Hd). by apply insert_id.
    + apply insert_id. destruct E as [p w]. simpl in *. by subst.
Qed.

Lemma C3_detach_clears_link_witness :
  (∃ s', DetachHandle (Some 1) (Some 10) one_observer = Ok tt s' ∧
        handles s' = <[10 := ManagedHandle.mk (Some 1) false]> (handles one_observer) ∧
        objects s' = <[1 := ManagedBase.mk nullptr true]> (objects one_observer) ∧
        objects s' !! 1 = Some (ManagedBase.mk nullptr true) ∧
        Valid (Some 10) s' = Ok false s' ∧
        (∀ h', h' ≠ 10 → handles s' !! h' = handles one_observer !! h') ∧
        (∀ e', e' ≠ 1 → objects s' !! e' = objects one_observer !! e') ∧
        DetachHandle (Some 1) (Some 10) s' = Ok tt s' ∧
        (detached one_observer 1 10 = true → handles s' = handles one_observer) ∧
        (detached one_observer 1 10 = true →
         ∀ h', reports s' h' = reports one_observer h') ∧
        (detached one_observer 1 10 = true → Some 10 = None → s' = one_observer)) ∧
  (∃ s', DetachHandle (Some 1) (Some 10) detached_then_other = Ok tt s' ∧
        handles s'
          = <[10 := ManagedHandle.mk (Some 1) false]> (handles detached_then_other) ∧
        objects s'
          = <[1 := ManagedBase.mk nullptr true]> (objects detached_then_other) ∧
        objects s' !! 1 = Some (ManagedBase.mk nullptr true) ∧
        Valid (Some 10) s' = Ok false s' ∧
        (∀ h', h' ≠ 10 → handles s' !! h' = handles detached_then_other !! h') ∧
        (∀ e', e' ≠ 1 → objects s' !! e' = objects detached_then_other !! e') ∧
        DetachHandle (Some 1) (Some 10) s' = Ok tt s' ∧
        (detached detached_then_other 1 10 = true →
         handles s' = handles detached_then_other) ∧
        (detached detached_then_other 1 10 = true →
         ∀ h', reports s' h' = reports detached_then_other h') ∧
        (detached detached_then_other 1 10 = true → Some 11 = None →
         s' = detached_then_other)).
Proof.
  split.
  - apply (C3_detach_clears_link one_observer 1 10
             (ManagedBase.mk (Some 10) true) (ManagedHandle.mk (Some 1) true));
      reflexivity.
  - apply (C3_detach_clears_link detached_then_other 1 10
             (ManagedBase.mk (Some 11) true) (ManagedHandle.mk (Some 1) false));
      reflexivity.
Defined.

(** C3 as stated fails: observer 10 was detached from the entity at 1 and
    observer 11 was attached afterwards; detaching the already detached
    pair (1, 10) again changes the entity's state, its [m_handle] goes from
    observer 11 to null. *)
Lemma C3_counterexample :
  run (live_entity ++ [OpNewHandle 10 1; OpDetach 1 10; OpNewHandle 11 1])
      empty_heap = Ok tt detached_then_other ∧
  detached detached_then_other 1 10 = true ∧
  ∃ s', DetachHandle (Some 1) (Some 10) detached_then_other = Ok tt s' ∧
        objects detached_then_other !! 1 = Some (ManagedBase.mk (Some 11) true) ∧
        objects s' !! 1 = Some (ManagedBase.mk nullptr true) ∧
        objects s' !! 1 ≠ objects detached_then_other !! 1.
Proof.
  split; [apply detached_then_other_reached|]. split.
  - reflexivity.
  - eexists. split; [vm_compute; reflexivity|].
    split; [reflexivity|]. split; [reflexivity|]. vm_compute. by intros [=].
Qed.




(** The path that works: when [InvalidateHandle] has run on the entity
    before it is destroyed, its observer reports invalid afterwards and
    the observer's destructor succeeds without reading the entity's
    storage. *)
Lemma invalidate_then_destroy_is_safe (s : Heap) (e h : nat)
    (E : ManagedBase.t) (H : ManagedHandle.t) :
  objects s !! e = Some E → ManagedBase.m_handle E = Some h →
  handles s !! h = Some H →
  ∃ s1 s2 s3,
    InvalidateHandle (Some e) s = Ok tt s1 ∧
    ManagedBase_dtor e s1 = Ok tt s2 ∧
    handles s2 = handles s1 ∧ objects s2 !! e = None ∧
    Valid (Some h) s2 = Ok false s2 ∧
    ManagedHandle_dtor h s2 = Ok tt s3 ∧
    handles s3 !! h = None ∧ objects s3 = objects s2.
Proof.
  intros HE Hh HH.
  set (H' := ManagedHandle.mk (ManagedHandle.m_object H) false).
  set (E' := ManagedBase.mk (Some h) false).
  exists (mkHeap (<[h := H']> (handles s)) (<[e := E']> (objects s))),
         (mkHeap (<[h := H']> (handles s)) (delete e (<[e := E']> (objects s)))),
         (mkHeap (delete h (<[h := H']> (handles s)))
                 (delete e (<[e := E']> (objects s)))).
  split; [by eapply InvalidateHandle_stored|].
  unfold ManagedBase_dtor, ManagedHandle_dtor, Valid, bind, load_object,
    load_handle, free_object, free_handle, ret. simpl.
  rewrite !lookup_insert_eq. simpl.
  split; [done|]. split; [done|]. split; [apply lookup_delete_eq|].
  split; [done|]. split; [by destruct (ManagedHandle.m_object H)|].
  split; [apply lookup_delete_eq | done].
Qed.



(** C10: when the observer held in an entity's [m_handle] has its valid
    flag false, destroying the observer does not call [DetachHandle]: the
    entity is left as it was, [m_handle] still holding the address of the
    destroyed observer, and a later [ValidateHandle] or [InvalidateHandle]
    on the entity dereferences that address. *)
Theorem C10_destroyed_invalid_observer_stays_linked (s : Heap) (e h : nat)
    (E : ManagedBase.t) (H : ManagedHandle.t) :
  objects s !! e = Some E → ManagedBase.m_handle E = Some h →
  handles s !! h = Some H → ManagedHandle.m_valid H = false →
  ∃ s', ManagedHandle_dtor h s = Ok tt s' ∧
        objects s' = objects s ∧
        (ManagedBase.m_handle <$> objects s' !! e) = Some (Some h) ∧
        handles s' !! h = None ∧
        ValidateHandle (Some e) s' = Fault (DanglingHandle h) ∧
        InvalidateHandle (Some e) s' = Fault (DanglingHandle h).
Proof.
  intros HE Hh HH Hv. eexists.
  assert (ManagedHandle_dtor h s
          = Ok tt (mkHeap (delete h (handles s)) (objects s))) as ->.
  { unfold ManagedHandle_dtor, bind, load_handle, free_handle, ret.
    rewrite HH, Hv. by destruct (ManagedHandle.m_object H). }
  split; [reflexivity|]. simpl. split; [done|].
  split; [by rewrite HE; simpl; rewrite Hh|].
  split; [apply lookup_delete_eq|].
  eapply stale_handle_faults; [exact HE | exact Hh | apply lookup_delete_eq].
Qed.

Lemma C10_destroyed_invalid_observer_stays_linked_witness :
  ∃ s', ManagedHandle_dtor 10 one_observer_invalidated = Ok tt s' ∧
        objects s' = objects one_observer_invalidated ∧
        (ManagedBase.m_handle <$> objects s' !! 1) = Some (Some 10) ∧
        handles s' !! 10 = None ∧
        ValidateHandle (Some 1) s' = Fault (DanglingHandle 10) ∧
        InvalidateHandle (Some 1) s' = Fault (DanglingHandle 10).
Proof.
  apply (C10_destroyed_invalid_observer_stays_linked one_observer_invalidated
           1 10 (ManagedBase.mk (Some 10) false)
           (ManagedHandle.mk (Some 1) false)); reflexivity.
Defined.

(** ** [ManagedObject] *)

(** C6, on the code: the copy constructor of [ManagedObject] is deleted,
    so no copy of a [ManagedObject] can be constructed (and neither a move
    nor a default construction), although the comment above the class says
    it "can be copied around". *)
Theorem C6_ManagedObject_copy_is_deleted (m : ManagedObject.t) :
  ManagedObject.copy m = None ∧
  copy_constructor ManagedObject.special = deleted ∧
  move_constructor ManagedObject.special = deleted.
Proof. repeat split. Qed.

(** C7: a [ManagedObject] constructed without a handle-kind argument, by
    the constructor directly or by [CreateInstance], has GC handle kind
    [HANDLE_PINNED], which is also the member's default initialiser; the
    kinds are exactly [HANDLE], [HANDLE_PINNED] and [WEAKREF], numbered 0,
    1 and 2. *)
Theorem C7_default_handle_kind_is_pinned
    (gchandle_new : EManagedObjectHandleType → option nat → N)
    (find_constructor : option nat → list nat → option nat)
    (runtime_invoke : nat → list nat → option nat)
    (obj cls : option nat) (signature params : list nat) :
  ManagedObject.GCHandleType (ManagedObject.ctor gchandle_new obj cls None)
    = HANDLE_PINNED ∧
  ManagedObject.GCHandle (ManagedObject.ctor gchandle_new obj cls None)
    = gchandle_new HANDLE_PINNED obj ∧
  (∀ k, ManagedObject.GCHandleType (ManagedObject.ctor gchandle_new obj cls (Some k)) = k) ∧
  ManagedObject.default_handleType = HANDLE_PINNED ∧
  from_option (λ m, ManagedObject.GCHandleType m = HANDLE_PINNED) True
    (ManagedObject.CreateInstance gchandle_new find_constructor runtime_invoke
       cls signature params) ∧
  (∀ k, k = HANDLE ∨ k = HANDLE_PINNED ∨ k = WEAKREF) ∧
  map handle_type_value [HANDLE; HANDLE_PINNED; WEAKREF] = [0; 1; 2].
Proof.
  repeat split.
  - unfold ManagedObject.CreateInstance.
    by destruct (find_constructor cls signature).
  - intros []; auto.
Qed.

(** ** [ManagedException_t] *)

Lemma record_all (ids : list nat) (d : ManagedException_t.t)
    (this ass obj : option nat) : ∀ w,
  fold_left (λ w cb, cb this ass obj d w)
            (ExceptionPipeline.recorder <$> ids) w
  = (w ++ ((λ i, (i, d)) <$> ids))%list.
Proof.
  induction ids as [|i ids IH]; intros w; simpl.
  - by rewrite app_nil_r.
  - rewrite IH. unfold ExceptionPipeline.recorder. by rewrite <- app_assoc.
Qed.

(** C8: the exception descriptor is pure data made of exactly six strings,
    the members [message], [stackTrace], [source], [klass] (class), [ns]
    (namespace) and [string_rep], in this order: the struct and the tuples
    of six strings are in one-to-one correspondence, an aggregate takes up
    to six initialisers (missing ones are empty strings) and a seventh
    does not compile.  [GetExceptionDescriptor] fills the six members
    from the raised object, and [ReportException] hands that descriptor to
    every registered callback, once each, in registration order. *)
Theorem C8_exception_descriptor_has_six_fields
    (exc_message exc_stackTrace exc_source exc_class exc_namespace
       exc_to_string : option nat → string) :
  (∀ e, ManagedException_t.of_tuple (ManagedException_t.to_tuple e) = e) ∧
  (∀ p, ManagedException_t.to_tuple (ManagedException_t.of_tuple p) = p) ∧
  (∀ e, ManagedException_t.fields e
        = [("message", ManagedException_t.message e);
           ("stackTrace", ManagedException_t.stackTrace e);
           ("source", ManagedException_t.source e);
           ("klass", ManagedException_t.klass e);
           ("ns", ManagedException_t.ns e);
           ("string_rep", ManagedException_t.string_rep e)]) ∧
  (∀ e1 e2, ManagedException_t.fields e1 = ManagedException_t.fields e2 →
            e1 = e2) ∧
  (∀ vs, ManagedException_t.of_values vs = None ↔ (6 < length vs)%nat) ∧
  (∀ vs, (length vs ≤ 6)%nat →
         ∃ e, ManagedException_t.of_values vs = Some e ∧
              (ManagedException_t.fields e).*2
              = (vs ++ replicate (6 - length vs) "")%list) ∧
  (∀ x, ManagedException_t.to_tuple
          (ExceptionPipeline.GetExceptionDescriptor exc_message
             exc_stackTrace exc_source exc_class exc_namespace
             exc_to_string x)
        = (exc_message x, exc_stackTrace x, exc_source x, exc_class x,
           exc_namespace x, exc_to_string x)) ∧
  (∀ ids c this obj ass w,
     ManagedScriptContext.m_callbacks _ c = ExceptionPipeline.recorder <$> ids →
     ExceptionPipeline.ReportException exc_message exc_stackTrace exc_source
       exc_class exc_namespace exc_to_string _ this c obj ass w
     = (w ++ ((λ i, (i, ExceptionPipeline.GetExceptionDescriptor exc_message
                          exc_stackTrace exc_source exc_class exc_namespace
                          exc_to_string obj)) <$> ids))%list).
Proof.
  split; [by intros []|]. split; [by intros [[[[[m st] src] k] n] r]|].
  split; [done|]. split; [by intros [] [] [=]; subst|].
  split.
  { intros vs. unfold ManagedException_t.of_values.
    case_decide; split; intros; try done; lia. }
  split.
  { intros vs Hlen. unfold ManagedException_t.of_values.
    rewrite decide_True by done. eexists. split; [reflexivity|].
    do 7 (destruct vs as [|? vs]; simpl in *; try done; try lia). }
  split; [done|].
  intros ids c this obj ass w Hcb.
  unfold ExceptionPipeline.ReportException. rewrite Hcb. apply record_all.
Qed.

(** ** The reflection cache *)

Module ManagedAssemblyFacts.
Import ManagedAssembly.

Lemma populate_rows_counts rows : ∀ next cs,
  class_counts (populate_rows rows next cs).1
  = (class_counts cs ++ image_counts rows)%list.
Proof.
  induction rows as [|r rows IH]; intros next cs; simpl.
  - by rewrite app_nil_r.
  - rewrite IH. unfold class_counts at 1. rewrite map_app. simpl.
    by rewrite <- app_assoc.
Qed.

Lemma populate_rows_next rows : ∀ next cs,
  (populate_rows rows next cs).2 = length rows + next.
Proof.
  induction rows as [|r rows IH]; intros next cs; simpl; [done|].
  rewrite IH. lia.
Qed.

Lemma populate_populated a : m_populated (PopulateReflectionInfo a) = true.
Proof.
  unfold PopulateReflectionInfo. destruct (m_populated a) eqn:Hp; [done|].
  by destruct (populate_rows _ _ _).
Qed.

Lemma populate_image a : m_image (PopulateReflectionInfo a) = m_image a.
Proof.
  unfold PopulateReflectionInfo. destruct (m_populated a); [done|].
  by destruct (populate_rows _ _ _).
Qed.

Lemma populate_noop a : m_populated a = true → PopulateReflectionInfo a = a.
Proof. intros Hp. unfold PopulateReflectionInfo. by rewrite Hp. Qed.

Lemma populate_coherent a : coherent a → coherent (PopulateReflectionInfo a).
Proof.
  unfold coherent, PopulateReflectionInfo.
  destruct (m_populated a) eqn:Hp; [by rewrite Hp|]. intros Hnil.
  pose proof (populate_rows_counts (m_image a) (next_node a) (m_classes a)) as Hc.
  destruct (populate_rows _ _ _) as [cs n]. simpl in *.
  by rewrite Hc, Hnil.
Qed.

Lemma reachable_coherent a : reachable a → coherent a.
Proof.
  induction 1 as [img next | a _ IH | a _ IH].
  - done.
  - by apply populate_coherent.
  - done.
Qed.

Lemma populate_counts a :
  coherent a →
  class_counts (m_classes (PopulateReflectionInfo a)) = image_counts (m_image a).
Proof.
  intros Hc. apply populate_coherent in Hc. unfold coherent in Hc.
  by rewrite populate_populated, populate_image in Hc.
Qed.

End ManagedAssemblyFacts.

(** C9: [PopulateReflectionInfo] is idempotent, a call on an already
    populated assembly changes nothing; and, for an assembly in any state
    it can be in after its construction, populate, dispose, populate ends
    semantically equal to one populate: populated, over the same image,
    with the same classes and the same numbers of methods, fields and
    properties per class (those of the image). *)
Theorem C9_populate_idempotent_and_round_trip (a : ManagedAssembly.t) :
  ManagedAssembly.reachable a →
  ManagedAssembly.PopulateReflectionInfo (ManagedAssembly.PopulateReflectionInfo a)
    = ManagedAssembly.PopulateReflectionInfo a ∧
  (ManagedAssembly.m_populated a = true →
   ManagedAssembly.PopulateReflectionInfo a = a) ∧
  ManagedAssembly.semantically_equal
    (ManagedAssembly.PopulateReflectionInfo
       (ManagedAssembly.DisposeReflectionInfo
          (ManagedAssembly.PopulateReflectionInfo a)))
    (ManagedAssembly.PopulateReflectionInfo a) ∧
  ManagedAssembly.m_populated (ManagedAssembly.PopulateReflectionInfo a) = true ∧
  ManagedAssembly.class_counts
    (ManagedAssembly.m_classes (ManagedAssembly.PopulateReflectionInfo a))
    = ManagedAssembly.image_counts (ManagedAssembly.m_image a).
Proof.
  intros Hr.
  pose proof (ManagedAssemblyFacts.reachable_coherent a Hr) as Hc.
  split.
  { apply ManagedAssemblyFacts.populate_noop,
      ManagedAssemblyFacts.populate_populated. }
  split; [apply ManagedAssemblyFacts.populate_noop|].
  split; [|split; [apply ManagedAssemblyFacts.populate_populated
                  |by apply ManagedAssemblyFacts.populate_counts]].
  unfold ManagedAssembly.semantically_equal.
  rewrite !ManagedAssemblyFacts.populate_populated. split; [done|].
  split; [by rewrite ManagedAssemblyFacts.populate_image|].
  rewrite (ManagedAssemblyFacts.populate_counts a Hc).
  rewrite ManagedAssemblyFacts.populate_counts; [|done].
  simpl. by rewrite ManagedAssemblyFacts.populate_image.
Qed.

Lemma C9_populate_idempotent_and_round_trip_witness :
  ManagedAssembly.PopulateReflectionInfo
    (ManagedAssembly.PopulateReflectionInfo fresh_assembly)
    = ManagedAssembly.PopulateReflectionInfo fresh_assembly ∧
  (ManagedAssembly.m_populated fresh_assembly = true →
   ManagedAssembly.PopulateReflectionInfo fresh_assembly = fresh_assembly) ∧
  ManagedAssembly.semantically_equal
    (ManagedAssembly.PopulateReflectionInfo
       (ManagedAssembly.DisposeReflectionInfo
          (ManagedAssembly.PopulateReflectionInfo fresh_assembly)))
    (ManagedAssembly.PopulateReflectionInfo fresh_assembly) ∧
  ManagedAssembly.m_populated
    (ManagedAssembly.PopulateReflectionInfo fresh_assembly) = true ∧
  ManagedAssembly.class_counts
    (ManagedAssembly.m_classes
       (ManagedAssembly.PopulateReflectionInfo fresh_assembly))
    = ManagedAssembly.image_counts (ManagedAssembly.m_image fresh_assembly).
Proof.
  apply (C9_populate_idempotent_and_round_trip fresh_assembly).
  apply ManagedAssembly.reach_ctor.
Defined.

(** The round trip is an equality of contents, not of stores: the class
    nodes of the second population are new ones. *)
Lemma round_trip_allocates_new_nodes :
  let once := ManagedAssembly.PopulateReflectionInfo fresh_assembly in
  let again := ManagedAssembly.PopulateReflectionInfo
                 (ManagedAssembly.DisposeReflectionInfo once) in
  (ManagedClass.node ∘ snd) <$> ManagedAssembly.m_classes once = [100; 101] ∧
  (ManagedClass.node ∘ snd) <$> ManagedAssembly.m_classes again = [102; 103] ∧
  ManagedAssembly.class_counts (ManagedAssembly.m_classes again)
  = [("Greeter", "Sample", "Greeter", 2, 1, 0);
     ("Greeter", "Other", "Greeter", 0, 0, 1)].
Proof. repeat split. Qed.

(** The struct of the older header keeps three of the six members, so it
    cannot tell apart descriptors that differ in the other three. *)
Lemma legacy_descriptor_drops_members e k n r :
  Legacy.of_current e
  = Legacy.of_current
      (ManagedException_t.mk (ManagedException_t.message e)
         (ManagedException_t.stackTrace e) (ManagedException_t.source e) k n r).
Proof. reflexivity. Qed.

(** * Further properties of the handle protocol *)



Lemma ValidateHandle_none s e E :
  objects s !! e = Some E → ManagedBase.m_handle E = None →
  ValidateHandle (Some e) s =
  Ok tt (mkHeap (handles s) (<[e := ManagedBase.mk nullptr true]> (objects s))).
Proof.
  intros HE Hh. destruct E as [p v]; simpl in *; subst.
  unfold_M. rewrite HE. simpl. by rewrite HE.
Qed.





(** X2: [ValidateHandle] on a live entity whose [m_handle] is null or
    points at a live observer marks the entity valid and, in the same call,
    makes the observer held in [m_handle] report valid, whichever entity
    that observer was constructed on; no other observer is written. *)
Theorem X2_validate_marks_stored_observer (s : Heap) (e : nat) (E : ManagedBase.t) :
  objects s !! e = Some E →
  (∀ h, ManagedBase.m_handle E = Some h → is_Some (handles s !! h)) →
  ∃ s', ValidateHandle (Some e) s = Ok tt s' ∧
        objects s' !! e = Some (ManagedBase.mk (ManagedBase.m_handle E) true) ∧
        (∀ h, ManagedBase.m_handle E = Some h → Valid (Some h) s' = Ok true s') ∧
        (∀ h, ManagedBase.m_handle E ≠ Some h → handles s' !! h = handles s !! h) ∧
        (∀ e', e' ≠ e → objects s' !! e' = objects s !! e').
Proof.
  intros HE Hlive. destruct (ManagedBase.m_handle E) as [h|] eqn:Hh.
  - destruct (Hlive h eq_refl) as [H HH].
    eexists. split; [by eapply ValidateHandle_stored|]. simpl.
    split; [by rewrite lookup_insert_eq|]. split; [|split].
    + intros h' [= <-]. unfold Valid, bind, load_handle, ret. simpl.
      by rewrite lookup_insert_eq.
    + intros h' Hne. rewrite lookup_insert_ne; [done | congruence].
    + intros e' Hne. by rewrite lookup_insert_ne.
  - eexists. split; [by eapply ValidateHandle_none|]. simpl.
    split; [by rewrite lookup_insert_eq|]. split; [done|]. split; [done|].
    intros e' Hne. by rewrite lookup_insert_ne.
Qed.

Lemma X2_validate_marks_stored_observer_witness :
  ∃ s', ValidateHandle (Some 1) one_observer_invalidated = Ok tt s' ∧
        objects s' !! 1 = Some (ManagedBase.mk (Some 10) true) ∧
        (∀ h, Some 10 = Some h → Valid (Some h) s' = Ok true s') ∧
        (∀ h, Some 10 ≠ Some h →
              handles s' !! h = handles one_observer_invalidated !! h) ∧
        (∀ e', e' ≠ 1 → objects s' !! e' = objects one_observer_invalidated !! e').
Proof.
  apply (X2_validate_marks_stored_observer one_observer_invalidated 1
           (ManagedBase.mk (Some 10) false)).
  - reflexivity.
  - intros h [= <-]. vm_compute. eauto.
Defined.

(** X3: of [InvalidateHandle] and [ValidateHandle] called in a row on the
    same entity, the last one decides: the two calls leave the store (or
    the fault) of the last call alone, and each call repeated is the call
    once. *)
Theorem X3_last_of_validate_invalidate_wins (this : option nat) (s : Heap) :
  (InvalidateHandle this ;;; ValidateHandle this) s = ValidateHandle this s ∧
  (ValidateHandle this ;;; InvalidateHandle this) s = InvalidateHandle this s ∧
  (InvalidateHandle this ;;; InvalidateHandle this) s = InvalidateHandle this s ∧
  (ValidateHandle this ;;; ValidateHandle this) s = ValidateHandle this s.
Proof.
  destruct this as [e|]; [|done].
  destruct (objects s !! e) as [E|] eqn:HE;
    [|by unfold_M; rewrite HE].
  destruct E as [[h|] v]; [destruct (handles s !! h) as [H|] eqn:HH|].
  - unfold bind.
    rewrite !(InvalidateHandle_stored s e _ h H HE eq_refl HH).
    rewrite !(ValidateHandle_stored s e _ h H HE eq_refl HH).
    repeat split.
    all: first [ erewrite ValidateHandle_stored | erewrite InvalidateHandle_stored ];
      [ | simpl; apply lookup_insert_eq | reflexivity | simpl; apply lookup_insert_eq ].
    all: simpl; by rewrite !insert_insert_eq.
  - unfold_M. rewrite HE. simpl. by rewrite HH.
  - unfold bind.
    rewrite !(InvalidateHandle_none s e _ HE eq_refl).
    rewrite !(ValidateHandle_none s e _ HE eq_refl).
    repeat split.
    all: first [ erewrite ValidateHandle_none | erewrite InvalidateHandle_none ];
      [ | simpl; apply lookup_insert_eq | reflexivity ].
    all: simpl; by rewrite !insert_insert_eq.
Qed.

(** X4: of [AttachHandle] and [DetachHandle] called in a row on the same
    entity and observer, the last one decides: detach then attach is
    attach (a detached observer can be attached again), attach then detach
    is detach, also when the calls fault. *)
Theorem X4_last_of_attach_detach_wins (this handle : option nat) (s : Heap) :
  (DetachHandle this handle ;;; AttachHandle this handle) s
    = AttachHandle this handle s ∧
  (AttachHandle this handle ;;; DetachHandle this handle) s
    = DetachHandle this handle s.
Proof.
  destruct handle as [h|]; [|done].
  destruct (handles s !! h) as [H|] eqn:HH; [|by unfold_M; rewrite HH].
  destruct this as [e|]; [|by unfold_M; rewrite HH].
  destruct (objects s !! e) as [E|] eqn:HE;
    [|by unfold_M; rewrite HH; simpl; rewrite HE].
  unfold bind.
  rewrite (AttachHandle_live s e E h H HE HH), (DetachHandle_live s e E h H HE HH).
  split.
  - erewrite AttachHandle_live; simpl; [|apply lookup_insert_eq..].
    simpl. by rewrite !insert_insert_eq.
  - erewrite DetachHandle_live; simpl; [|apply lookup_insert_eq..].
    simpl. by rewrite !insert_insert_eq.
Qed.

(** X5: constructing an observer in fresh storage on a live entity without
    observer and destroying it again leaves every other observer as it
    was; when the entity is valid the store is exactly the one before, and
    when the entity is invalid the destructor skips the detach, the entity
    keeps the address of the destroyed observer in [m_handle], and a later
    [ValidateHandle] on it faults. *)
Theorem X5_observer_lifetime_round_trip (s : Heap) (e h : nat) (E : ManagedBase.t) :
  objects s !! e = Some E → ManagedBase.m_handle E = None →
  handles s !! h = None →
  ∃ s', (ManagedHandle_ctor h (Some e) ;;; ManagedHandle_dtor h) s = Ok tt s' ∧
        handles s' = handles s ∧
        if ManagedBase.m_valid E then s' = s
        else objects s' !! e = Some (ManagedBase.mk (Some h) false) ∧
             ValidateHandle (Some e) s' = Fault (DanglingHandle h).
Proof.
  intros HE Hh Hfresh. destruct E as [p v]. simpl in *. subst p.
  assert (ManagedHandle_ctor h (Some e) s =
          Ok tt (mkHeap (<[h := ManagedHandle.mk (Some e) v]> (handles s))
                        (<[e := ManagedBase.mk (Some h) v]> (objects s)))) as Hctor.
  { unfold ManagedHandle_ctor, bind, alloc_handle, load_handle. simpl.
    rewrite lookup_insert_eq. simpl.
    erewrite AttachHandle_live; [|exact HE|simpl; apply lookup_insert_eq].
    simpl. by rewrite insert_insert_eq. }
  unfold bind at 1. rewrite Hctor.
  unfold ManagedHandle_dtor, bind, load_handle, free_handle, ret. simpl.
  rewrite lookup_insert_eq. simpl. destruct v.
  - erewrite DetachHandle_live; simpl; [|apply lookup_insert_eq..].
    eexists. split; [reflexivity|]. simpl.
    rewrite insert_insert_eq, delete_insert_eq, insert_insert_eq.
    rewrite (delete_id _ _ Hfresh), (insert_id _ _ _ HE).
    split; [done|]. by destruct s.
  - eexists. split; [reflexivity|]. simpl.
    rewrite delete_insert_eq, (delete_id _ _ Hfresh).
    split; [done|]. split; [apply lookup_insert_eq|].
    eapply stale_handle_faults; simpl; [apply lookup_insert_eq|done..].
Qed.

Lemma X5_observer_lifetime_round_trip_witness :
  ∃ s', (ManagedHandle_ctor 10 (Some 1) ;;; ManagedHandle_dtor 10) lone_entity
          = Ok tt s' ∧
        handles s' = handles lone_entity ∧
        if true then s' = lone_entity
        else objects s' !! 1 = Some (ManagedBase.mk (Some 10) false) ∧
             ValidateHandle (Some 1) s' = Fault (DanglingHandle 10).
Proof.
  apply (X5_observer_lifetime_round_trip lone_entity 1 10
           (ManagedBase.mk nullptr true)); reflexivity.
Defined.

(** X6: when a valid entity already holds an observer, constructing a
    second observer on it and destroying that one again resets the
    entity's [m_handle] to null without writing the first observer: the
    first observer is cut off, and [InvalidateHandle] on the entity
    afterwards leaves it reporting what it reported before. *)
Theorem X6_second_observer_unlinks_first (s : Heap) (e h0 h : nat)
    (E : ManagedBase.t) (H0 : ManagedHandle.t) :
  objects s !! e = Some E → ManagedBase.m_valid E = true →
  ManagedBase.m_handle E = Some h0 → handles s !! h0 = Some H0 →
  handles s !! h = None →
  ∃ s' s'', (ManagedHandle_ctor h (Some e) ;;; ManagedHandle_dtor h) s = Ok tt s' ∧
        handles s' = handles s ∧
        objects s' !! e = Some (ManagedBase.mk nullptr true) ∧
        InvalidateHandle (Some e) s' = Ok tt s'' ∧
        objects s'' !! e = Some (ManagedBase.mk nullptr false) ∧
        reports s'' h0 = reports s h0.
Proof.
  intros HE Hv Hh HH0 Hfresh. destruct E as [p v]. simpl in *. subst p v.
  assert (ManagedHandle_ctor h (Some e) s =
          Ok tt (mkHeap (<[h := ManagedHandle.mk (Some e) true]> (handles s))
                        (<[e := ManagedBase.mk (Some h) true]> (objects s)))) as Hctor.
  { unfold ManagedHandle_ctor, bind, alloc_handle, load_handle. simpl.
    rewrite lookup_insert_eq. simpl.
    erewrite AttachHandle_live; [|exact HE|simpl; apply lookup_insert_eq].
    simpl. by rewrite insert_insert_eq. }
  unfold bind at 1. rewrite Hctor.
  unfold ManagedHandle_dtor, bind, load_handle, free_handle, ret. simpl.
  rewrite lookup_insert_eq. simpl.
  erewrite DetachHandle_live; simpl; [|apply lookup_insert_eq..]. simpl.
  rewrite insert_insert_eq, delete_insert_eq, insert_insert_eq.
  rewrite (delete_id _ _ Hfresh).
  eexists _, _. split; [reflexivity|]. simpl. split; [done|].
  split; [apply lookup_insert_eq|]. split.
  { eapply InvalidateHandle_none; simpl; [apply lookup_insert_eq|done]. }
  simpl. split; [apply lookup_insert_eq | done].
Qed.

Lemma X6_second_observer_unlinks_first_witness :
  ∃ s' s'', (ManagedHandle_ctor 11 (Some 1) ;;; ManagedHandle_dtor 11) one_observer
              = Ok tt s' ∧
        handles s' = handles one_observer ∧
        objects s' !! 1 = Some (ManagedBase.mk nullptr true) ∧
        InvalidateHandle (Some 1) s' = Ok tt s'' ∧
        objects s'' !! 1 = Some (ManagedBase.mk nullptr false) ∧
        reports s'' 10 = reports one_observer 10.
Proof.
  apply (X6_second_observer_unlinks_first one_observer 1 10 11
           (ManagedBase.mk (Some 10) true) (ManagedHandle.mk (Some 1) true));
    reflexivity.
Defined.

(** X7: the [m_object] of a live observer is changed only by
    constructing a handle in its storage (from an entity pointer or as a
    copy) or by copy-assigning to it; no other call on the two
    templates changes it: not [AttachHandle] (which does not record the
    entity in the observer), not [DetachHandle], not [InvalidateHandle],
    not [Validate] or [Invalidate], not the destruction of its entity,
    none of which resets it to null. *)
Theorem X7_m_object_never_retargeted (o : op) (s s' : Heap) (h : nat)
    (H H' : ManagedHandle.t) :
  step o s = Ok tt s' →
  handles s !! h = Some H → handles s' !! h = Some H' →
  (∀ x, o ≠ OpNewHandle h x) → (∀ x, o ≠ OpCopyHandle h x) →
  (∀ x, o ≠ OpAssignHandle h x) →
  ManagedHandle.m_object H' = ManagedHandle.m_object H.
Proof.
  intros Hs HH HH' Hn1 Hn2 Hn3.
  destruct o; exec_M; map_cases; try congruence.
  all: exfalso; first [by eapply Hn1 | by eapply Hn2 | by eapply Hn3].
Qed.

Lemma X7_m_object_never_retargeted_witness :
  ManagedHandle.m_object (ManagedHandle.mk (Some 1) true) = Some 1.
Proof.
  apply (X7_m_object_never_retargeted (OpDeleteObject 1) one_observer
           (mkHeap {[ 10 := ManagedHandle.mk (Some 1) true ]} ∅) 10
           (ManagedHandle.mk (Some 1) true) (ManagedHandle.mk (Some 1) true));
    [vm_compute; reflexivity | reflexivity | reflexivity
    | by intros x [=] | by intros x [=] | by intros x [=]].
Defined.

(** X8: [operator*] and [operator->] do not look at the valid flag.  After
    [InvalidateHandle] on a live entity its observer reports invalid and
    still dereferences to the entity; once the entity is destroyed as
    well, dereferencing the observer reads the destroyed entity's
    storage. *)
Theorem X8_dereference_ignores_validity (s : Heap) (e h : nat)
    (E : ManagedBase.t) (H : ManagedHandle.t) :
  objects s !! e = Some E → ManagedBase.m_handle E = Some h →
  handles s !! h = Some H → ManagedHandle.m_object H = Some e →
  operator_star (Some h) s = Ok E s ∧
  ∃ s1 s2, InvalidateHandle (Some e) s = Ok tt s1 ∧
           Valid (Some h) s1 = Ok false s1 ∧
           operator_star (Some h) s1 = Ok (ManagedBase.mk (Some h) false) s1 ∧
           ManagedBase_dtor e s1 = Ok tt s2 ∧
           Valid (Some h) s2 = Ok false s2 ∧
           operator_star (Some h) s2 = Fault (DanglingObject e).
Proof.
  intros HE Hh HH Ho. split.
  { unfold operator_star, bind, load_handle, load_object. by rewrite HH, Ho, HE. }
  destruct H as [o v]. simpl in Ho. subst o.
  set (H' := ManagedHandle.mk (Some e) false).
  set (E' := ManagedBase.mk (Some h) false).
  exists (mkHeap (<[h := H']> (handles s)) (<[e := E']> (objects s))),
         (mkHeap (<[h := H']> (handles s)) (delete e (<[e := E']> (objects s)))).
  split; [by rewrite (InvalidateHandle_stored s e E h _ HE Hh HH)|].
  unfold Valid, operator_star, ManagedBase_dtor, bind, load_handle,
    load_object, free_object, ret. simpl.
  rewrite !lookup_insert_eq. simpl. rewrite !lookup_insert_eq.
  by rewrite lookup_delete_eq.
Qed.

Lemma X8_dereference_ignores_validity_witness :
  operator_star (Some 10) one_observer
    = Ok (ManagedBase.mk (Some 10) true) one_observer ∧
  ∃ s1 s2, InvalidateHandle (Some 1) one_observer = Ok tt s1 ∧
           Valid (Some 10) s1 = Ok false s1 ∧
           operator_star (Some 10) s1 = Ok (ManagedBase.mk (Some 10) false) s1 ∧
           ManagedBase_dtor 1 s1 = Ok tt s2 ∧
           Valid (Some 10) s2 = Ok false s2 ∧
           operator_star (Some 10) s2 = Fault (DanglingObject 1).
Proof.
  apply (X8_dereference_ignores_validity one_observer 1 10
           (ManagedBase.mk (Some 10) true) (ManagedHandle.mk (Some 1) true));
    reflexivity.
Defined.

(** X9: the constructor of [ManagedHandle] does not check its argument,
    the destructor does: constructing a handle on a null pointer or on the
    address of a destroyed entity dereferences that pointer, while
    destroying a handle whose [m_object] is null only gives up the
    handle's storage, and destroying one that reports invalid touches no
    entity even when its [m_object] dangles. *)
Theorem X9_constructor_unchecked_destructor_checked (s : Heap) (this : nat) :
  ManagedHandle_ctor this None s = Fault NullDeref ∧
  (∀ e, objects s !! e = None →
        ManagedHandle_ctor this (Some e) s = Fault (DanglingObject e)) ∧
  (∀ v, handles s !! this = Some (ManagedHandle.mk None v) →
        ManagedHandle_dtor this s
        = Ok tt (mkHeap (delete this (handles s)) (objects s))) ∧
  (∀ p, handles s !! this = Some (ManagedHandle.mk p false) →
        ManagedHandle_dtor this s
        = Ok tt (mkHeap (delete this (handles s)) (objects s))).
Proof.
  split; [|split; [|split]].
  - unfold_M. simpl. by repeat (rewrite lookup_insert_eq; simpl).
  - intros e He. unfold_M. simpl. repeat (rewrite lookup_insert_eq; simpl).
    by rewrite He.
  - intros v HH. unfold_M. by rewrite HH.
  - intros p HH. unfold_M. rewrite HH. simpl. by destruct p.
Qed.

(** X10: an entity is constructed invalid and without observer, so an
    observer constructed on a new entity reports invalid, and reports
    valid after the entity's first [ValidateHandle]; none of the three
    calls can fault. *)
Theorem X10_new_entity_is_invalid (s : Heap) (e h : nat) :
  ∃ s1 s2 s3,
    ManagedBase_ctor e s = Ok tt s1 ∧
    objects s1 !! e = Some (ManagedBase.mk nullptr false) ∧
    ManagedHandle_ctor h (Some e) s1 = Ok tt s2 ∧
    Valid (Some h) s2 = Ok false s2 ∧
    ValidateHandle (Some e) s2 = Ok tt s3 ∧
    Valid (Some h) s3 = Ok true s3 ∧
    objects s3 !! e = Some (ManagedBase.mk (Some h) true).
Proof.
  eexists _, _, _. split; [reflexivity|]. simpl.
  split; [apply lookup_insert_eq|]. split.
  { unfold ManagedHandle_ctor, bind, alloc_handle, load_handle. simpl.
    rewrite lookup_insert_eq. simpl.
    erewrite AttachHandle_live; simpl; [reflexivity|apply lookup_insert_eq..]. }
  simpl. split.
  { unfold Valid, bind, load_handle, ret. simpl. by rewrite lookup_insert_eq. }
  split.
  { erewrite ValidateHandle_stored; simpl;
      [reflexivity | apply lookup_insert_eq | done | apply lookup_insert_eq]. }
  simpl. split; [|apply lookup_insert_eq].
  unfold Valid, bind, load_handle, ret. simpl. by rewrite lookup_insert_eq.
Qed.

(** X11: [RegisterExceptionCallback] only appends: after any number of
    registrations the callbacks registered before are still there, at
    their places, followed by the new ones in the order of registration
    (a callback registered twice is there twice), and nothing else of the
    context has changed. *)
Theorem X11_callbacks_kept_in_registration_order (C : Type) (cbs : list C)
    (c : ManagedScriptContext.t C) :
  ManagedScriptContext.m_callbacks C (ManagedScriptContext.register_all C cbs c)
    = (ManagedScriptContext.m_callbacks C c ++ cbs)%list ∧
  ManagedScriptContext.m_loadedAssemblies C (ManagedScriptContext.register_all C cbs c)
    = ManagedScriptContext.m_loadedAssemblies C c ∧
  ManagedScriptContext.RawDomain C (ManagedScriptContext.register_all C cbs c)
    = ManagedScriptContext.RawDomain C c ∧
  ManagedScriptContext.m_baseImage C (ManagedScriptContext.register_all C cbs c)
    = ManagedScriptContext.m_baseImage C c ∧
  ManagedScriptContext.m_initialized C (ManagedScriptContext.register_all C cbs c)
    = ManagedScriptContext.m_initialized C c.
Proof.
  revert c. induction cbs as [|cb cbs IH]; intros c.
  - simpl. by rewrite app_nil_r.
  - simpl. destruct (IH (ManagedScriptContext.RegisterExceptionCallback C cb c))
      as (-> & -> & -> & -> & ->). simpl. by rewrite <- app_assoc.
Qed.



(** X13: among the calls on the two templates, a live observer that
    reports valid comes to report invalid only in these ways:
    [InvalidateHandle] on an entity that holds it, a [DetachHandle] of it,
    an attach of it to an invalid entity, a copy of a handle that reports
    invalid into it, or a friend's direct call of its [Invalidate]; and it
    is gone only after its own destructor. *)
Theorem X13_how_an_observer_stops_reporting_valid (o : op) (s s' : Heap) (h : nat) :
  step o s = Ok tt s' → reports s h = Some true →
  (reports s' h = Some false →
     (∃ e E, o = OpInvalidate e ∧ objects s !! e = Some E ∧
             ManagedBase.m_handle E = Some h) ∨
     (∃ e, o = OpDetach e h) ∨
     (∃ e E, (o = OpAttach e h ∨ o = OpNewHandle h e) ∧
             objects s !! e = Some E ∧ ManagedBase.m_valid E = false) ∨
     (∃ src, (o = OpCopyHandle h src ∨ o = OpAssignHandle h src) ∧
             reports s src = Some false) ∨
     o = OpHandleInvalidate h) ∧
  (reports s' h = None → o = OpDeleteHandle h).
Proof.
  intros Hs Hv. unfold reports in *. split; intros Hv'.
  - destruct o; exec_M; map_cases; try congruence; eauto 10.
    all: do 3 right; left;
      match goal with
      | H : handles _ !! ?x = Some ?a, Hf : ManagedHandle.m_valid ?a = false |- _ =>
          exists x; (split; [eauto|]); rewrite H; simpl;
          unfold ManagedHandle.Valid; congruence
      end.
  - destruct o; exec_M; map_cases; try congruence; eauto 10.
Qed.

Lemma X13_how_an_observer_stops_reporting_valid_witness :
  (reports one_observer_invalidated 10 = Some false →
     (∃ e E, OpInvalidate 1 = OpInvalidate e ∧
             objects one_observer !! e = Some E ∧
             ManagedBase.m_handle E = Some 10) ∨
     (∃ e, OpInvalidate 1 = OpDetach e 10) ∨
     (∃ e E, (OpInvalidate 1 = OpAttach e 10 ∨ OpInvalidate 1 = OpNewHandle 10 e) ∧
             objects one_observer !! e = Some E ∧ ManagedBase.m_valid E = false) ∨
     (∃ src, (OpInvalidate 1 = OpCopyHandle 10 src ∨
              OpInvalidate 1 = OpAssignHandle 10 src) ∧
             reports one_observer src = Some false) ∨
     OpInvalidate 1 = OpHandleInvalidate 10) ∧
  (reports one_observer_invalidated 10 = None → OpInvalidate 1 = OpDeleteHandle 10).
Proof.
  apply (X13_how_an_observer_stops_reporting_valid (OpInvalidate 1)
           one_observer one_observer_invalidated 10);
    vm_compute; reflexivity.
Defined.
